(** * app.main: three static JSON endpoints behind a FastAPI router

    The module under verification is

      app = FastAPI()
      @app.get("/")            def root():   return {"message": "Hello from Kubernetes!"}
      @app.get("/health")      def health(): return {"status": "healthy"}
      @app.get("/api/status")  def status(): return {"status": "ok"}

    and its test

      client = TestClient(app)
      def test_health(): assert client.get("/health").status_code == 200

    The module's own code is the three handlers and the four statements
    that build the route table.  Everything a request goes through
    afterwards is the framework the module is mounted in; the part of it
    that decides the status code and the body of a response, and the part
    that writes to the application object, is embedded here function by
    function, under the framework's names:

      - [setup]            FastAPI.setup, run by the constructor FastAPI()
      - [Route_init], [APIRoute_init], [add_route], [add_api_route], [get]
      - [path_regex_match] the pattern compile_path builds for a literal
                           path, used by Route.matches
      - [Route_matches], [Route_handle], [Router_app], [not_found]
      - [URL_init]         URL(scope=...), which decodes the query string
      - [openapi]          FastAPI.openapi, which memoises the schema
      - [Starlette_call]   Starlette.__call__, which builds the middleware
                           stack on the first request
      - [http_exception_handler], [error_response], [asgi_call]
      - [JSONResponse], [RedirectResponse], [json_dumps]

    Strings are byte strings (a Python str is held as its UTF-8 bytes),
    status codes are integers, a dict is an association list in insertion
    order.  Python exceptions are the left summand of a result type and
    everything runs in a state-and-exception monad over the application
    object.

    Scope of the model.  Route paths are literal: a path with a
    {parameter} is outside the model, and the statements that range over
    arbitrary route tables say so in a hypothesis.  The server is taken to
    run with its default, empty root_path.  Response headers
    (Content-Length, Allow, Location) are not represented.  The bytes of
    the documents the framework generates for its documentation routes are
    not spelled out: such a body is held as the document and the inputs it
    is rendered from. *)

From Stdlib Require Import String Ascii List ZArith Bool Lia.
Import ListNotations.

Local Open Scope string_scope.
Local Open Scope Z_scope.

(* ===================================================================== *)
(** ** Byte strings *)
(* ===================================================================== *)

Module Bytes.

Definition chr (n : nat) : string := String (ascii_of_nat n) EmptyString.

(** The characters that cannot be written inside a literal. *)
Definition DQUOTE : string := chr 34.
Definition LF : string := chr 10.

(** str.endswith(c) for a one-character suffix. *)
Fixpoint endswith (c : ascii) (s : string) : bool :=
  match s with
  | EmptyString => false
  | String a EmptyString => Ascii.eqb a c
  | String _ t => endswith c t
  end.

(** str.rstrip(c) for a one-character set: every trailing [c] is removed. *)
Fixpoint rstrip (c : ascii) (s : string) : string :=
  match s with
  | EmptyString => EmptyString
  | String a t =>
      match rstrip c t with
      | EmptyString => if Ascii.eqb a c then EmptyString else String a EmptyString
      | t' => String a t'
      end
  end.

(** sep.join(parts) *)
Fixpoint join (sep : string) (parts : list string) : string :=
  match parts with
  | [] => EmptyString
  | [p] => p
  | p :: ps => p ++ sep ++ join sep ps
  end.

Definition hex_digit (n : nat) : string :=
  match n with
  | 0%nat => "0" | 1%nat => "1" | 2%nat => "2" | 3%nat => "3"
  | 4%nat => "4" | 5%nat => "5" | 6%nat => "6" | 7%nat => "7"
  | 8%nat => "8" | 9%nat => "9" | 10%nat => "a" | 11%nat => "b"
  | 12%nat => "c" | 13%nat => "d" | 14%nat => "e" | _ => "f"
  end.

(** c in s, for a character. *)
Fixpoint contains (c : ascii) (s : string) : bool :=
  match s with
  | EmptyString => false
  | String a t => Ascii.eqb a c || contains c t
  end.

(** s.startswith(c), for a character. *)
Definition startswith (c : ascii) (s : string) : bool :=
  match s with
  | EmptyString => false
  | String a _ => Ascii.eqb a c
  end.

Definition between (lo hi : nat) (a : ascii) : bool :=
  Nat.leb lo (nat_of_ascii a) && Nat.leb (nat_of_ascii a) hi.

(** A continuation byte, 0x80 to 0xBF. *)
Definition continuation (a : ascii) : bool := between 128 191 a.

(** bytes.decode() succeeds: the bytes are well-formed UTF-8 in the strict
    sense of the codec, which refuses overlong forms, surrogates and code
    points above U+10FFFF. *)
Fixpoint utf8_valid (s : string) : bool :=
  match s with
  | EmptyString => true
  | String a t =>
      if between 0 127 a then utf8_valid t
      else if between 194 223 a then
        match t with
        | String b t1 => continuation b && utf8_valid t1
        | _ => false
        end
      else if between 224 239 a then
        match t with
        | String b (String c t2) =>
            (if between 224 224 a then between 160 191 b
             else if between 237 237 a then between 128 159 b
             else continuation b)
            && continuation c && utf8_valid t2
        | _ => false
        end
      else if between 240 244 a then
        match t with
        | String b (String c (String d t3)) =>
            (if between 240 240 a then between 144 191 b
             else if between 244 244 a then between 128 143 b
             else continuation b)
            && continuation c && continuation d && utf8_valid t3
        | _ => false
        end
      else false
  end.

End Bytes.

(* ===================================================================== *)
(** ** json.dumps on the values the handlers return *)
(* ===================================================================== *)

Module Json.
Import Bytes.

(** A Python dict with str keys and str values, in insertion order. *)
Definition PyDict : Type := list (string * string).

(** json.encoder.py_encode_basestring, character by character: backslash,
    double quote and the control characters below 0x20 are escaped, every
    other byte is copied (ensure_ascii is False). *)
Definition escape_char (a : ascii) : string :=
  let n := nat_of_ascii a in
  if Nat.eqb n 92 then chr 92 ++ chr 92
  else if Nat.eqb n 34 then chr 92 ++ DQUOTE
  else if Nat.eqb n 8 then chr 92 ++ "b"
  else if Nat.eqb n 12 then chr 92 ++ "f"
  else if Nat.eqb n 10 then chr 92 ++ "n"
  else if Nat.eqb n 13 then chr 92 ++ "r"
  else if Nat.eqb n 9 then chr 92 ++ "t"
  else if Nat.ltb n 32
       then chr 92 ++ "u00" ++ hex_digit (Nat.div n 16) ++ hex_digit (Nat.modulo n 16)
  else String a EmptyString.

Fixpoint escape (s : string) : string :=
  match s with
  | EmptyString => EmptyString
  | String a t => escape_char a ++ escape t
  end.

Definition encode_basestring (s : string) : string :=
  DQUOTE ++ escape s ++ DQUOTE.

(** json.dumps(content, ensure_ascii=False, allow_nan=False, indent=None,
    separators=(",", ":")).encode("utf-8") *)
Definition json_dumps (d : PyDict) : string :=
  "{" ++ join "," (map (fun kv => encode_basestring (fst kv) ++ ":" ++ encode_basestring (snd kv)) d)
      ++ "}".

End Json.

(* ===================================================================== *)
(** ** Requests, responses, routes, the application object *)
(* ===================================================================== *)

Module Http.
Import Bytes Json.

(** The ASGI scope of an HTTP request, with the request body.  The query
    string is the raw bytes after the question mark. *)
Record Request : Type := mkRequest {
  req_method : string;
  req_path : string;
  req_query_string : string;
  req_headers : list (string * string);
  req_body : string
}.

(** The functions of this module that are registered as path operations. *)
Inductive PathOperation : Type :=
| fn_root
| fn_health
| fn_status.

(** The endpoints FastAPI.setup defines. *)
Inductive DocsEndpoint : Type :=
| fn_openapi
| fn_swagger_ui_html
| fn_swagger_ui_redirect
| fn_redoc_html.

Inductive Endpoint : Type :=
| PathOp (f : PathOperation)
| Docs (f : DocsEndpoint).

Record Route : Type := mkRoute {
  path : string;
  methods : list string;
  endpoint : Endpoint
}.

(** What get_openapi reads of the application to build the schema: the
    path operations of the table, in order. *)
Definition Schema : Type := list Route.

(** Documents the framework generates for its documentation routes.  The
    three pages are rendered from constants of the application (its title
    and its documentation URLs); the OpenAPI document is rendered from the
    schema. *)
Inductive Document : Type :=
| OpenAPIDocument (schema : Schema)
| SwaggerUIPage
| SwaggerUIRedirectPage
| ReDocPage.

Inductive Body : Type :=
| Bytes (b : string)
| Generated (d : Document).

Record Response : Type := mkResponse {
  status_code : Z;
  media_type : option string;
  body : Body
}.

(** starlette.responses *)
Definition JSONResponse (content : PyDict) (status : Z) : Response :=
  mkResponse status (Some "application/json") (Bytes (json_dumps content)).

Definition PlainTextResponse (content : string) (status : Z) : Response :=
  mkResponse status (Some "text/plain") (Bytes content).

Definition HTMLResponse (page : Document) : Response :=
  mkResponse 200 (Some "text/html") (Generated page).

Definition RedirectResponse : Response :=
  mkResponse 307 None (Bytes EmptyString).

Inductive Exn : Type :=
| HTTPException (status : Z) (detail : string)
| Exception (message : string).

(** HTTPException(status_code=404) and HTTPException(status_code=405), the
    two the router raises: the detail defaults to
    http.HTTPStatus(status_code).phrase. *)
Definition HTTPException_404 : Exn := HTTPException 404 "Not Found".
Definition HTTPException_405 : Exn := HTTPException 405 "Method Not Allowed".

Inductive Middleware : Type :=
| ServerErrorMiddleware
| ExceptionMiddleware.

(** The application object: app.router.routes, the router's slash
    setting, and the two attributes the framework fills in lazily,
    app.middleware_stack and app.openapi_schema (None until then). *)
Record Application : Type := mkApplication {
  routes : list Route;
  redirect_slashes : bool;
  middleware_stack : option (list Middleware);
  openapi_schema : option Schema
}.

Definition set_routes (a : Application) (rs : list Route) : Application :=
  mkApplication rs (redirect_slashes a) (middleware_stack a) (openapi_schema a).

Definition set_middleware_stack (a : Application) (stack : list Middleware) : Application :=
  mkApplication (routes a) (redirect_slashes a) (Some stack) (openapi_schema a).

Definition set_openapi_schema (a : Application) (schema : Schema) : Application :=
  mkApplication (routes a) (redirect_slashes a) (middleware_stack a) (Some schema).

Inductive Match : Type :=
| NONE
| PARTIAL
| FULL.

End Http.

(* ===================================================================== *)
(** ** A state-and-exception monad over the application object *)
(* ===================================================================== *)

Module Eff.
Import Http.

Definition M (A : Type) : Type := Application -> (Exn + A) * Application.

Definition ret {A : Type} (a : A) : M A := fun s => (inr a, s).

Definition raise {A : Type} (e : Exn) : M A := fun s => (inl e, s).

Definition bind {A B : Type} (m : M A) (k : A -> M B) : M B :=
  fun s =>
    match m s with
    | (inr a, s') => k a s'
    | (inl e, s') => (inl e, s')
    end.

(** try: m  except Exception as e: h(e) *)
Definition try_except {A : Type} (m : M A) (h : Exn -> M A) : M A :=
  fun s =>
    match m s with
    | (inr a, s') => (inr a, s')
    | (inl e, s') => h e s'
    end.

Definition get_state : M Application := fun s => (inr s, s).

Definition put_state (s' : Application) : M unit := fun _ => (inr tt, s').

End Eff.

Declare Scope eff_scope.
Notation "x <- m ;; k" := (Eff.bind m (fun x => k))
  (at level 61, m at next level, right associativity) : eff_scope.

(* ===================================================================== *)
(** ** Route registration (starlette.routing, fastapi.routing) *)
(* ===================================================================== *)

Module Routing.
Import Bytes Json Http Eff.
Local Open Scope eff_scope.

(** set membership: [m in methods] *)
Definition mem (m : string) (ms : list string) : bool :=
  existsb (String.eqb m) ms.

(** Route(path, endpoint) as FastAPI.setup builds it, with methods left at
    None: a function endpoint is given GET, and HEAD is added because GET
    is there. *)
Definition Route_init (p : string) (f : DocsEndpoint) : Route :=
  mkRoute p ["GET"; "HEAD"] (Docs f).

(** APIRoute(path, endpoint, methods=["GET"]) as app.get builds it: the
    methods are kept as given, no HEAD is added. *)
Definition APIRoute_init (p : string) (f : PathOperation) : Route :=
  mkRoute p ["GET"] (PathOp f).

(** Router.add_route and Router.add_api_route append to the table. *)
Definition add_route (p : string) (f : DocsEndpoint) (a : Application) : Application :=
  set_routes a (routes a ++ [Route_init p f])%list.

Definition add_api_route (p : string) (f : PathOperation) (a : Application) : Application :=
  set_routes a (routes a ++ [APIRoute_init p f])%list.

(** The decorator app.get(path): registers the function for GET. *)
Definition get (p : string) (f : PathOperation) (a : Application) : Application :=
  add_api_route p f a.

(** The documentation URLs of FastAPI() with every argument at its
    default. *)
Definition openapi_url : option string := Some "/openapi.json".
Definition docs_url : option string := Some "/docs".
Definition redoc_url : option string := Some "/redoc".
Definition swagger_ui_oauth2_redirect_url : option string := Some "/docs/oauth2-redirect".

(** The truth value of an optional str: None and the empty string are
    false. *)
Definition truthy (u : option string) : bool :=
  match u with
  | Some s => negb (String.eqb s EmptyString)
  | None => false
  end.

Definition url_of (u : option string) : string :=
  match u with
  | Some s => s
  | None => EmptyString
  end.

(** FastAPI.setup: the documentation routes, each guarded by its URL
    being set. *)
Definition setup (a : Application) : Application :=
  let a :=
    if truthy openapi_url then add_route (url_of openapi_url) fn_openapi a else a in
  let a :=
    if truthy openapi_url && truthy docs_url then
      let a := add_route (url_of docs_url) fn_swagger_ui_html a in
      if truthy swagger_ui_oauth2_redirect_url
      then add_route (url_of swagger_ui_oauth2_redirect_url) fn_swagger_ui_redirect a
      else a
    else a in
  if truthy openapi_url && truthy redoc_url
  then add_route (url_of redoc_url) fn_redoc_html a
  else a.

(** FastAPI(): an empty table, a router that redirects slashes, no
    middleware stack and no schema yet; the constructor ends by running
    setup. *)
Definition FastAPI : Application :=
  setup (mkApplication [] true None None).

End Routing.

(* ===================================================================== *)
(** ** app/main.py *)
(* ===================================================================== *)

Module Main.
Import Bytes Json Http Eff Routing.

(** def root(): return {"message": "Hello from Kubernetes!"} *)
Definition root : M PyDict := ret [("message", "Hello from Kubernetes!")].

(** def health(): return {"status": "healthy"} *)
Definition health : M PyDict := ret [("status", "healthy")].

(** def status(): return {"status": "ok"} *)
Definition status : M PyDict := ret [("status", "ok")].

(** The module body: app = FastAPI(), then the three decorators in order. *)
Definition app : Application :=
  let app := FastAPI in
  let app := get "/" fn_root app in
  let app := get "/health" fn_health app in
  let app := get "/api/status" fn_status app in
  app.

(** Calling the function object a route holds. *)
Definition call (f : PathOperation) : M PyDict :=
  match f with
  | fn_root => root
  | fn_health => health
  | fn_status => status
  end.

End Main.

(* ===================================================================== *)
(** ** Dispatch (starlette.routing.Router, fastapi.applications) *)
(* ===================================================================== *)

Module Dispatch.
Import Bytes Json Http Eff Routing Main.
Local Open Scope eff_scope.

(** The pattern compile_path builds for a literal path (one that starts
    with a slash and has no {parameter}) is ^path$, and re.match with a
    final $ accepts the path itself or the path followed by one newline. *)
Definition path_regex_match (route_path : string) (p : string) : bool :=
  String.eqb p route_path || String.eqb p (route_path ++ LF).

(** Route.matches *)
Definition Route_matches (r : Route) (req : Request) : Match :=
  if path_regex_match (path r) (req_path req) then
    match methods r with
    | [] => FULL
    | ms => if mem (req_method req) ms then FULL else PARTIAL
    end
  else NONE.

(** get_openapi(routes=self.routes): the schema is built from the path
    operations of the table; the documentation routes are plain routes and
    are left out. *)
Definition is_api_route (r : Route) : bool :=
  match endpoint r with
  | PathOp _ => true
  | Docs _ => false
  end.

Definition get_openapi (rs : list Route) : Schema := filter is_api_route rs.

(** FastAPI.openapi: the first call stores the schema in
    app.openapi_schema, the next calls return what is stored. *)
Definition openapi : M Schema :=
  a <- get_state ;;
  match openapi_schema a with
  | Some schema => ret schema
  | None =>
      let schema := get_openapi (routes a) in
      _ <- put_state (set_openapi_schema a schema) ;;
      ret schema
  end.

(** The endpoints defined in FastAPI.setup: func(request) -> response. *)
Definition docs_endpoint (f : DocsEndpoint) (req : Request) : M Response :=
  match f with
  | fn_openapi =>
      schema <- openapi ;;
      ret (mkResponse 200 (Some "application/json") (Generated (OpenAPIDocument schema)))
  | fn_swagger_ui_html => ret (HTMLResponse SwaggerUIPage)
  | fn_swagger_ui_redirect => ret (HTMLResponse SwaggerUIRedirectPage)
  | fn_redoc_html => ret (HTMLResponse ReDocPage)
  end.

(** The request handler of an APIRoute: run the endpoint function, which
    takes no parameter, and wrap what it returns in a JSONResponse. *)
Definition request_handler (f : PathOperation) (req : Request) : M Response :=
  raw_response <- call f ;;
  ret (JSONResponse raw_response 200).

(** Route.handle *)
Definition Route_handle (r : Route) (req : Request) : M Response :=
  match methods r with
  | [] =>
      match endpoint r with
      | PathOp f => request_handler f req
      | Docs f => docs_endpoint f req
      end
  | ms =>
      if mem (req_method req) ms then
        match endpoint r with
        | PathOp f => request_handler f req
        | Docs f => docs_endpoint f req
        end
      else raise HTTPException_405
  end.

(** Router.not_found inside an application. *)
Definition not_found : M Response := raise HTTPException_404.

(** The first loop of Router.app: the first FULL match wins at once, the
    first PARTIAL match is remembered. *)
Fixpoint first_match (rs : list Route) (req : Request) (partial : option Route)
  : Route + option Route :=
  match rs with
  | [] => inr partial
  | r :: rs' =>
      match Route_matches r req with
      | FULL => inl r
      | PARTIAL =>
          match partial with
          | None => first_match rs' req (Some r)
          | Some _ => first_match rs' req partial
          end
      | NONE => first_match rs' req partial
      end
  end.

(** The path tried when nothing matched: trailing slashes stripped, or one
    slash appended. *)
Definition redirect_path (p : string) : string :=
  if endswith "/" p then rstrip "/" p else p ++ "/".

Definition with_path (req : Request) (p : string) : Request :=
  mkRequest (req_method req) p (req_query_string req) (req_headers req) (req_body req).

Definition matches_some (rs : list Route) (req : Request) : bool :=
  existsb (fun r => match Route_matches r req with NONE => false | _ => true end) rs.

(** URL(scope=redirect_scope): the URL is assembled from the scheme, the
    Host header, the path and the query string; the query string is
    decoded as UTF-8, which raises UnicodeDecodeError on other bytes. *)
Definition URL_init (req : Request) : M unit :=
  if utf8_valid (req_query_string req)
  then ret tt
  else raise (Exception "UnicodeDecodeError").

(** Router.app *)
Definition Router_app (req : Request) : M Response :=
  a <- get_state ;;
  match first_match (routes a) req None with
  | inl route => Route_handle route req
  | inr (Some partial) => Route_handle partial req
  | inr None =>
      if redirect_slashes a && negb (String.eqb (req_path req) "/") then
        if matches_some (routes a) (with_path req (redirect_path (req_path req)))
        then
          _ <- URL_init (with_path req (redirect_path (req_path req))) ;;
          ret RedirectResponse
        else not_found
      else not_found
  end.

(** fastapi.utils.is_body_allowed_for_status_code *)
Definition is_body_allowed_for_status_code (code : Z) : bool :=
  negb ((code <? 200) || (code =? 204) || (code =? 205) || (code =? 304)).

(** fastapi.exception_handlers.http_exception_handler *)
Definition http_exception_handler (code : Z) (detail : string) : Response :=
  if is_body_allowed_for_status_code code
  then JSONResponse [("detail", detail)] code
  else mkResponse code None (Bytes EmptyString).

(** ServerErrorMiddleware.error_response *)
Definition error_response : Response :=
  PlainTextResponse "Internal Server Error" 500.

(** Starlette.build_middleware_stack without user middleware. *)
Definition build_middleware_stack : list Middleware :=
  [ServerErrorMiddleware; ExceptionMiddleware].

(** The exception middleware around the router: an HTTPException becomes
    its JSON error response, any other exception goes on. *)
Definition ExceptionMiddleware_call (req : Request) : M Response :=
  try_except (Router_app req)
    (fun e =>
       match e with
       | HTTPException code detail => ret (http_exception_handler code detail)
       | Exception message => raise (Exception message)
       end).

(** Starlette.__call__: the middleware stack is built on the first call
    and kept in app.middleware_stack; an exception that comes out of it has
    been answered with a 500 by the server-error middleware and is raised
    again for the server to log. *)
Definition Starlette_call (req : Request) : M Response :=
  a <- get_state ;;
  _ <- match middleware_stack a with
       | None => put_state (set_middleware_stack a build_middleware_stack)
       | Some _ => ret tt
       end ;;
  ExceptionMiddleware_call req.

(** What is sent back for a request, and the application object
    afterwards. *)
Definition asgi_call (req : Request) (s : Application) : Response * Application :=
  match Starlette_call req s with
  | (inr response, s') => (response, s')
  | (inl _, s') => (error_response, s')
  end.

(** What a client observes for a request sent to the imported module. *)
Definition respond (req : Request) : Response := fst (asgi_call req app).

(** The application after serving a sequence of requests. *)
Fixpoint serve_all (history : list Request) (s : Application) : Application :=
  match history with
  | [] => s
  | req :: rest => serve_all rest (snd (asgi_call req s))
  end.

End Dispatch.

(* ===================================================================== *)
(** ** tests/test_main.py *)
(* ===================================================================== *)

Module TestMain.
Import Bytes Json Http Eff Routing Main Dispatch.
Local Open Scope eff_scope.

(** What the test client sees of one call of the application: it is
    created with raise_server_exceptions at its default, so an exception
    the server-error middleware has answered with a 500 is raised again in
    the test. *)
Definition client_send (req : Request) : M Response := Starlette_call req.

(** The client follows redirects (follow_redirects defaults to True).  For
    a request that carries the client's own Host header and a table whose
    paths hold no URL metacharacter, the Location the router writes is the
    request URL with its path replaced by [redirect_path]; the method is
    kept for a 307, and the client gives up once its budget of redirects is
    spent. *)
Fixpoint send_handling_redirects (budget : nat) (req : Request) : M Response :=
  fun s =>
    match client_send req s with
    | (inr response, s') =>
        if status_code response =? 307 then
          match budget with
          | O => (inl (Exception "TooManyRedirects"), s')
          | S budget' =>
              send_handling_redirects budget'
                (with_path req (redirect_path (req_path req))) s'
          end
        else (inr response, s')
    | (inl e, s') => (inl e, s')
    end.

Definition max_redirects : nat := 20.

(** client.get(url) for a URL that is an absolute path in normal form, such
    as /health: a GET request without query string or body, carrying the
    client's default headers. *)
Definition client_get (default_headers : list (string * string)) (url : string) : M Response :=
  send_handling_redirects max_redirects (mkRequest "GET" url EmptyString default_headers EmptyString).

(** def test_health(): assert client.get("/health").status_code == 200 *)
Definition test_health (default_headers : list (string * string)) : M unit :=
  response <- client_get default_headers "/health" ;;
  if status_code response =? 200 then ret tt else raise (Exception "AssertionError").

End TestMain.

(* ===================================================================== *)
(** ** Vocabulary of the properties *)
(* ===================================================================== *)

Module Props.
Import Bytes Json Http Eff Routing Main Dispatch.

(** A JSON string literal with nothing to escape. *)
Definition quoted (s : string) : string := DQUOTE ++ s ++ DQUOTE.

(** The response is a JSON response with this status and this content. *)
Definition answers_json (r : Response) (code : Z) (content : PyDict) : Prop :=
  status_code r = code /\
  media_type r = Some "application/json" /\
  body r = Bytes (json_dumps content).

(** The (method, path) pairs of the three decorators of the module. *)
Definition declared_routes : list (string * string) :=
  [("GET", "/"); ("GET", "/health"); ("GET", "/api/status")].

Definition declared_paths : list string := map snd declared_routes.

Definition is_declared (req : Request) : bool :=
  existsb (fun mp => String.eqb (req_method req) (fst mp) && String.eqb (req_path req) (snd mp))
          declared_routes.

(** The route table read as (method, path) pairs. *)
Definition route_pairs (a : Application) : list (string * string) :=
  flat_map (fun r => map (fun m => (m, path r)) (methods r)) (routes a).

(** The routes whose endpoint is a function of the module. *)
Definition is_path_operation (r : Route) : bool :=
  match endpoint r with
  | PathOp _ => true
  | Docs _ => false
  end.

Definition module_routes (a : Application) : list Route :=
  filter is_path_operation (routes a).

(** The path is accepted by the pattern of some route of the table. *)
Definition path_in_table (a : Application) (p : string) : bool :=
  existsb (fun r => path_regex_match (path r) p) (routes a).

(** Requests used as concrete inputs. *)
Definition probe (m p : string) : Request :=
  mkRequest m p "verbose=1" [("host", "cluster.local"); ("accept", "*/*")] "ignored".

Definition bare (m p : string) : Request :=
  mkRequest m p EmptyString [] EmptyString.

Definition get_health : Request := probe "GET" "/health".
Definition get_root : Request := probe "GET" "/".
Definition get_api_status : Request := probe "GET" "/api/status".
Definition post_health : Request := bare "POST" "/health".
Definition get_docs : Request := bare "GET" "/docs".
Definition get_unknown : Request := bare "GET" "/unknown".

(** GET /health/ with the query string x=1, and with the single byte 0xFF
    as query string. *)
Definition get_health_slash : Request :=
  mkRequest "GET" "/health/" "x=1" [] EmptyString.

Definition get_health_slash_0xFF : Request :=
  mkRequest "GET" "/health/" (chr 255) [] EmptyString.

End Props.

(* ===================================================================== *)
(** ** Vocabulary of the further properties *)
(* ===================================================================== *)

Module Reading.
Import Bytes Json Http Eff Routing Main Dispatch Props.

(** The paths of the documentation routes. *)
Definition docs_paths : list string :=
  ["/openapi.json"; "/docs"; "/docs/oauth2-redirect"; "/redoc"].

(** The path is one of [paths], alone or followed by one newline. *)
Definition accepted_by (paths : list string) (p : string) : bool :=
  existsb (fun rp => path_regex_match rp p) paths.

(** The requests the imported application answers with a handler. *)
Definition served (req : Request) : bool :=
  (accepted_by declared_paths (req_path req) && String.eqb (req_method req) "GET")
  || (accepted_by docs_paths (req_path req)
      && (String.eqb (req_method req) "GET" || String.eqb (req_method req) "HEAD")).

(** Some route of the table matches the request fully. *)
Definition has_full_match (rs : list Route) (req : Request) : bool :=
  existsb (fun r => match Route_matches r req with FULL => true | _ => false end) rs.

(** A literal route path: it starts with a slash and has no brace, so that
    compile_path finds no parameter in it. *)
Definition literal_path (p : string) : bool :=
  startswith "/" p && negb (contains "{" p).

Definition literal_table (a : Application) : bool :=
  forallb (fun r => literal_path (path r)) (routes a).

(** Two literal route paths whose patterns accept a common path: the
    paths are equal, or one is the other followed by a newline. *)
Definition overlapping (p1 p2 : string) : bool :=
  String.eqb p1 p2 || String.eqb p1 (p2 ++ LF) || String.eqb p2 (p1 ++ LF).

(** The body is the generated OpenAPI document. *)
Definition is_openapi_document (b : Body) : bool :=
  match b with
  | Generated (OpenAPIDocument _) => true
  | _ => false
  end.

(** The bytes of a body, given the bytes the framework renders each of
    its documents to. *)
Definition body_bytes (render : Document -> string) (b : Body) : string :=
  match b with
  | Bytes s => s
  | Generated d => render d
  end.

(** The dict each handler returns. *)
Definition returned (f : PathOperation) : PyDict :=
  match f with
  | fn_root => [("message", "Hello from Kubernetes!")]
  | fn_health => [("status", "healthy")]
  | fn_status => [("status", "ok")]
  end.

(** The application once its middleware stack is built, and once its
    schema is memoised. *)
Definition started (a : Application) : Application :=
  match middleware_stack a with
  | Some _ => a
  | None => set_middleware_stack a build_middleware_stack
  end.

Definition schema_of (a : Application) : Schema :=
  match openapi_schema a with
  | Some schema => schema
  | None => get_openapi (routes a)
  end.

Definition memoised (a : Application) : Application :=
  match openapi_schema a with
  | Some _ => a
  | None => set_openapi_schema a (get_openapi (routes a))
  end.

(** The stored schema, if any, is the schema of the table as it is. *)
Definition schema_in_date (a : Application) : Prop :=
  openapi_schema a = None \/ openapi_schema a = Some (get_openapi (routes a)).

(** The ways a request can end in the router. *)
Inductive Outcome : Type :=
| Served (r : Route)
| Refused (r : Route)
| Redirected
| DecodeFailed
| NotFound.

Definition method_allowed (r : Route) (req : Request) : bool :=
  match methods r with
  | [] => true
  | ms => mem (req_method req) ms
  end.

Definition outcome (a : Application) (req : Request) : Outcome :=
  match first_match (routes a) req None with
  | inl r | inr (Some r) => if method_allowed r req then Served r else Refused r
  | inr None =>
      if redirect_slashes a && negb (String.eqb (req_path req) "/") then
        if matches_some (routes a) (with_path req (redirect_path (req_path req)))
        then if utf8_valid (req_query_string req) then Redirected else DecodeFailed
        else NotFound
      else NotFound
  end.

Definition outcome_response (a : Application) (o : Outcome) : Response :=
  match o with
  | Served r =>
      match endpoint r with
      | PathOp f => JSONResponse (returned f) 200
      | Docs fn_openapi =>
          mkResponse 200 (Some "application/json") (Generated (OpenAPIDocument (schema_of a)))
      | Docs fn_swagger_ui_html => HTMLResponse SwaggerUIPage
      | Docs fn_swagger_ui_redirect => HTMLResponse SwaggerUIRedirectPage
      | Docs fn_redoc_html => HTMLResponse ReDocPage
      end
  | Refused _ => JSONResponse [("detail", "Method Not Allowed")] 405
  | Redirected => RedirectResponse
  | DecodeFailed => error_response
  | NotFound => JSONResponse [("detail", "Not Found")] 404
  end.

Definition outcome_state (a : Application) (o : Outcome) : Application :=
  match o with
  | Served r =>
      match endpoint r with
      | Docs fn_openapi => memoised a
      | _ => a
      end
  | _ => a
  end.

(** Every byte of the string is 0x20 or above. *)
Fixpoint no_control_character (s : string) : bool :=
  match s with
  | EmptyString => true
  | String a t => Nat.leb 32 (nat_of_ascii a) && no_control_character t
  end.

Definition unhex (a : ascii) : option nat :=
  let n := nat_of_ascii a in
  if Nat.leb 48 n && Nat.leb n 57 then Some (n - 48)%nat
  else if Nat.leb 97 n && Nat.leb n 102 then Some (n - 87)%nat
  else None.

(** Reading back a string literal written by [encode_basestring], from
    just after its opening quote: the content and what follows the closing
    quote.  It undoes exactly the escapes the encoder writes. *)
Fixpoint scan_string (s : string) : option (string * string) :=
  match s with
  | EmptyString => None
  | String a t =>
      if Nat.eqb (nat_of_ascii a) 34 then Some (EmptyString, t)
      else if Nat.eqb (nat_of_ascii a) 92 then
        match t with
        | EmptyString => None
        | String b t' =>
            let continue_with (c : nat) (rest : option (string * string)) :=
              match rest with
              | Some (content, after) => Some (String (ascii_of_nat c) content, after)
              | None => None
              end in
            let k := nat_of_ascii b in
            if Nat.eqb k 92 then continue_with 92%nat (scan_string t')
            else if Nat.eqb k 34 then continue_with 34%nat (scan_string t')
            else if Nat.eqb k 98 then continue_with 8%nat (scan_string t')
            else if Nat.eqb k 102 then continue_with 12%nat (scan_string t')
            else if Nat.eqb k 110 then continue_with 10%nat (scan_string t')
            else if Nat.eqb k 114 then continue_with 13%nat (scan_string t')
            else if Nat.eqb k 116 then continue_with 9%nat (scan_string t')
            else if Nat.eqb k 117 then
              match t' with
              | String z1 (String z2 (String h (String l t''))) =>
                  match unhex z1, unhex z2, unhex h, unhex l with
                  | Some 0%nat, Some 0%nat, Some hi, Some lo =>
                      continue_with (16 * hi + lo)%nat (scan_string t'')
                  | _, _, _, _ => None
                  end
              | _ => None
              end
            else None
        end
      else
        match scan_string t with
        | Some (content, after) => Some (String a content, after)
        | None => None
        end
  end.

End Reading.

(* ===================================================================== *)
(** ** The dispatch in closed form *)
(* ===================================================================== *)

Import Bytes Json Http Eff Routing Main Dispatch Props TestMain Reading.

Lemma call_returns (f : PathOperation) (s : Application) :
  call f s = (inr (returned f), s).
Proof.
  destruct f; reflexivity.
Qed.

Lemma call_pure (f : PathOperation) (s : Application) :
  exists d, call f s = (inr d, s) /\ length d = 1%nat.
Proof.
  exists (returned f). split; [apply call_returns | destruct f; reflexivity].
Qed.

(** Running the application is the same as reading off its outcome. *)
Lemma Starlette_call_outcome (req : Request) (s : Application) :
  Starlette_call req s =
    (match outcome (started s) req with
     | DecodeFailed => inl (Exception "UnicodeDecodeError")
     | o => inr (outcome_response (started s) o)
     end,
     outcome_state (started s) (outcome (started s) req)).
Proof.
  destruct s as [rs slash stack schema].
  unfold Starlette_call, ExceptionMiddleware_call, try_except, Router_app, URL_init,
    outcome, started, bind, get_state, put_state, Route_handle, method_allowed,
    request_handler, docs_endpoint, openapi, bind, get_state, put_state.
  destruct stack as [stack |]; cbn -[redirect_path first_match matches_some utf8_valid mem];
    (destruct (first_match rs req None) as [r | [r |]];
     [ destruct r as [p ms e]; cbn -[mem];
       destruct ms as [| m ms]; [| destruct (mem (req_method req) (m :: ms))];
       try reflexivity;
       destruct e as [f | f]; destruct f; try reflexivity;
       destruct schema; reflexivity
     | destruct r as [p ms e]; cbn -[mem];
       destruct ms as [| m ms]; [| destruct (mem (req_method req) (m :: ms))];
       try reflexivity;
       destruct e as [f | f]; destruct f; try reflexivity;
       destruct schema; reflexivity
     | destruct (slash && negb (req_path req =? "/")%string);
       [ destruct (matches_some rs (with_path req (redirect_path (req_path req))));
         [ destruct (utf8_valid (req_query_string req)); reflexivity
         | reflexivity ]
       | reflexivity ] ]).
Qed.

Lemma asgi_call_outcome (req : Request) (s : Application) :
  asgi_call req s =
    (outcome_response (started s) (outcome (started s) req),
     outcome_state (started s) (outcome (started s) req)).
Proof.
  unfold asgi_call. rewrite Starlette_call_outcome.
  destruct (outcome (started s) req); reflexivity.
Qed.

(* ===================================================================== *)
(** ** What a request changes, and what it leaves *)
(* ===================================================================== *)

Lemma routes_started (s : Application) : routes (started s) = routes s.
Proof. unfold started. destruct (middleware_stack s); reflexivity. Qed.

Lemma redirect_slashes_started (s : Application) :
  redirect_slashes (started s) = redirect_slashes s.
Proof. unfold started. destruct (middleware_stack s); reflexivity. Qed.

Lemma openapi_schema_started (s : Application) :
  openapi_schema (started s) = openapi_schema s.
Proof. unfold started. destruct (middleware_stack s); reflexivity. Qed.

Lemma schema_of_started (s : Application) : schema_of (started s) = schema_of s.
Proof.
  unfold schema_of. rewrite openapi_schema_started, routes_started. reflexivity.
Qed.

Lemma outcome_started (s : Application) (req : Request) :
  outcome (started s) req = outcome s req.
Proof.
  unfold outcome. rewrite routes_started, redirect_slashes_started. reflexivity.
Qed.

Lemma routes_outcome_state (a : Application) (o : Outcome) :
  routes (outcome_state a o) = routes a.
Proof.
  destruct o as [r | r | | |]; try reflexivity.
  cbn. destruct (endpoint r) as [f | f]; [reflexivity |].
  destruct f; try reflexivity.
  unfold memoised. destruct (openapi_schema a); reflexivity.
Qed.

Lemma redirect_slashes_outcome_state (a : Application) (o : Outcome) :
  redirect_slashes (outcome_state a o) = redirect_slashes a.
Proof.
  destruct o as [r | r | | |]; try reflexivity.
  cbn. destruct (endpoint r) as [f | f]; [reflexivity |].
  destruct f; try reflexivity.
  unfold memoised. destruct (openapi_schema a); reflexivity.
Qed.

Lemma schema_of_outcome_state (a : Application) (o : Outcome) :
  schema_of (outcome_state a o) = schema_of a.
Proof.
  destruct o as [r | r | | |]; try reflexivity.
  cbn. destruct (endpoint r) as [f | f]; [reflexivity |].
  destruct f; try reflexivity.
  unfold memoised, schema_of. destruct (openapi_schema a) eqn:E; cbn; rewrite ?E; reflexivity.
Qed.

Lemma asgi_call_routes (req : Request) (s : Application) :
  routes (snd (asgi_call req s)) = routes s.
Proof.
  rewrite asgi_call_outcome. cbn [snd].
  rewrite routes_outcome_state. apply routes_started.
Qed.

Lemma asgi_call_redirect_slashes (req : Request) (s : Application) :
  redirect_slashes (snd (asgi_call req s)) = redirect_slashes s.
Proof.
  rewrite asgi_call_outcome. cbn [snd].
  rewrite redirect_slashes_outcome_state. apply redirect_slashes_started.
Qed.

Lemma asgi_call_schema_of (req : Request) (s : Application) :
  schema_of (snd (asgi_call req s)) = schema_of s.
Proof.
  rewrite asgi_call_outcome. cbn [snd].
  rewrite schema_of_outcome_state. apply schema_of_started.
Qed.

Lemma serve_all_routes (history : list Request) (s : Application) :
  routes (serve_all history s) = routes s.
Proof.
  revert s. induction history as [| req rest IH]; intros s; cbn [serve_all].
  - reflexivity.
  - rewrite IH. apply asgi_call_routes.
Qed.

Lemma serve_all_redirect_slashes (history : list Request) (s : Application) :
  redirect_slashes (serve_all history s) = redirect_slashes s.
Proof.
  revert s. induction history as [| req rest IH]; intros s; cbn [serve_all].
  - reflexivity.
  - rewrite IH. apply asgi_call_redirect_slashes.
Qed.

Lemma serve_all_schema_of (history : list Request) (s : Application) :
  schema_of (serve_all history s) = schema_of s.
Proof.
  revert s. induction history as [| req rest IH]; intros s; cbn [serve_all].
  - reflexivity.
  - rewrite IH. apply asgi_call_schema_of.
Qed.

(** The response is a function of the route table, of the slash setting
    and of the schema that is stored or would be stored. *)
Lemma asgi_call_response (req : Request) (s1 s2 : Application) :
  routes s1 = routes s2 ->
  redirect_slashes s1 = redirect_slashes s2 ->
  schema_of s1 = schema_of s2 ->
  fst (asgi_call req s1) = fst (asgi_call req s2).
Proof.
  intros Hr Hs Hd. rewrite !asgi_call_outcome. cbn [fst].
  rewrite !outcome_started.
  assert (Ho : outcome s1 req = outcome s2 req).
  { unfold outcome. rewrite Hr, Hs. reflexivity. }
  rewrite Ho. destruct (outcome s2 req) as [r | r | | |]; try reflexivity.
  cbn. rewrite !schema_of_started, Hd. reflexivity.
Qed.

(** Once both caches are filled, a request changes nothing. *)
Lemma asgi_call_warm (req : Request) (s : Application) :
  middleware_stack s <> None ->
  openapi_schema s <> None ->
  snd (asgi_call req s) = s.
Proof.
  intros Hstack Hschema. rewrite asgi_call_outcome. cbn [snd].
  assert (Hs : started s = s).
  { unfold started. destruct (middleware_stack s); [reflexivity | contradiction]. }
  rewrite Hs. destruct (outcome s req) as [r | r | | |]; try reflexivity.
  cbn. destruct (endpoint r) as [f | f]; [reflexivity |].
  destruct f; try reflexivity.
  unfold memoised. destruct (openapi_schema s); [reflexivity | contradiction].
Qed.

(* ===================================================================== *)
(** ** The two loops of the router *)
(* ===================================================================== *)

Lemma matches_some_path (rs : list Route) (req : Request) :
  matches_some rs req = existsb (fun r => path_regex_match (path r) (req_path req)) rs.
Proof.
  unfold matches_some. induction rs as [| r rs IH]; cbn.
  - reflexivity.
  - rewrite IH. f_equal. unfold Route_matches.
    destruct (path_regex_match (path r) (req_path req)); [| reflexivity].
    destruct (methods r); [reflexivity |].
    destruct (mem _ _); reflexivity.
Qed.

Lemma matches_some_app (rs extra : list Route) (req : Request) :
  matches_some (rs ++ extra)%list req = matches_some rs req || matches_some extra req.
Proof.
  unfold matches_some. apply existsb_app.
Qed.

(** When no pattern of the table accepts the path, the first loop of the
    router leaves its accumulator untouched. *)
Lemma first_match_unmatched (rs : list Route) (req : Request) (partial : option Route) :
  existsb (fun r => path_regex_match (path r) (req_path req)) rs = false ->
  first_match rs req partial = inr partial.
Proof.
  revert partial. induction rs as [| r rs IH]; intros partial H; cbn in *.
  - reflexivity.
  - apply orb_false_iff in H. destruct H as [Hr Hrs].
    unfold Route_matches. rewrite Hr. apply IH. exact Hrs.
Qed.



Lemma first_match_snoc_none (rs : list Route) (r : Route) (req : Request)
  (partial : option Route) :
  Route_matches r req = NONE ->
  first_match (rs ++ [r])%list req partial = first_match rs req partial.
Proof.
  intros Hnone. revert partial.
  induction rs as [| r0 rs IH]; intros partial; cbn.
  - rewrite Hnone. reflexivity.
  - destruct (Route_matches r0 req); [apply IH | destruct partial; apply IH | reflexivity].
Qed.

Lemma first_match_of_full (rs extra : list Route) (req : Request) (partial : option Route) :
  has_full_match rs req = true ->
  first_match (rs ++ extra)%list req partial = first_match rs req partial /\
  exists r, first_match rs req partial = inl r.
Proof.
  revert partial. induction rs as [| r0 rs IH]; intros partial H; cbn in *.
  - discriminate H.
  - destruct (Route_matches r0 req) eqn:E; cbn in H.
    + apply IH. exact H.
    + destruct partial; apply IH; exact H.
    + split; [reflexivity | eexists; reflexivity].
Qed.

Lemma first_match_swap (rs : list Route) (r1 r2 : Route) (req : Request)
  (partial : option Route) :
  Route_matches r1 req = NONE \/ Route_matches r2 req = NONE ->
  first_match (rs ++ [r2; r1])%list req partial = first_match (rs ++ [r1; r2])%list req partial.
Proof.
  intros H. revert partial.
  induction rs as [| r0 rs IH]; intros partial; cbn.
  - destruct H as [H | H]; rewrite H;
      [destruct (Route_matches r2 req) | destruct (Route_matches r1 req)];
      destruct partial; reflexivity.
  - destruct (Route_matches r0 req); [apply IH | destruct partial; apply IH | reflexivity].
Qed.



Lemma outcome_without_match (a : Application) (req : Request) :
  first_match (routes a) req None = inr None ->
  outcome a req =
    if redirect_slashes a && negb (String.eqb (req_path req) "/") then
      if matches_some (routes a) (with_path req (redirect_path (req_path req)))
      then if utf8_valid (req_query_string req) then Redirected else DecodeFailed
      else NotFound
    else NotFound.
Proof.
  intros H. unfold outcome. rewrite H. reflexivity.
Qed.



(* ===================================================================== *)
(** ** The outcome reads the method, the path and the query string *)
(* ===================================================================== *)




Lemma outcome_congr (a1 a2 : Application) (req : Request) :
  routes a1 = routes a2 ->
  redirect_slashes a1 = redirect_slashes a2 ->
  outcome a1 req = outcome a2 req.
Proof.
  intros Hr Hs. unfold outcome. rewrite Hr, Hs. reflexivity.
Qed.

(** A full match is a match whose method is allowed. *)
Lemma first_match_full_allowed (rs : list Route) (req : Request) (partial : option Route)
  (r : Route) :
  first_match rs req partial = inl r ->
  method_allowed r req = true.
Proof.
  revert partial. induction rs as [| r0 rs IH]; intros partial; cbn.
  - discriminate.
  - destruct (Route_matches r0 req) eqn:E.
    + apply IH.
    + destruct partial; apply IH.
    + intros H. injection H as <-. unfold Route_matches in E. unfold method_allowed.
      destruct (path_regex_match (path r0) (req_path req)); [| discriminate E].
      destruct (methods r0) as [| m ms]; [reflexivity |].
      destruct (mem (req_method req) (m :: ms)); [reflexivity | discriminate E].
Qed.

Lemma first_match_in (rs : list Route) (req : Request) (partial : option Route) (r : Route) :
  first_match rs req partial = inl r \/
  (first_match rs req partial = inr (Some r) /\ partial <> Some r) ->
  In r rs /\ path_regex_match (path r) (req_path req) = true.
Proof.
  revert partial. induction rs as [| r0 rs IH]; intros partial H; cbn in H.
  - destruct H as [H | [H Hn]]; [discriminate H |].
    injection H as H. contradiction.
  - destruct (Route_matches r0 req) eqn:E.
    + destruct (IH partial H) as [Hin Hp]. split; [right; exact Hin | exact Hp].
    + assert (Hp0 : path_regex_match (path r0) (req_path req) = true).
      { unfold Route_matches in E.
        destruct (path_regex_match (path r0) (req_path req)); [reflexivity | discriminate E]. }
      destruct partial as [r1 |].
      * destruct (IH (Some r1) H) as [Hin Hp]. split; [right; exact Hin | exact Hp].
      * destruct H as [H | [H _]].
        -- destruct (IH (Some r0) (or_introl H)) as [Hin Hp].
           split; [right; exact Hin | exact Hp].
        -- assert (D : Some r0 = Some r \/ Some r0 <> Some r).
           { destruct r0 as [p0 ms0 e0], r as [p ms e].
             destruct (String.eqb_spec p0 p) as [-> | N]; [| right; congruence].
             destruct (list_eq_dec string_dec ms0 ms) as [-> | N]; [| right; congruence].
             assert (De : e0 = e \/ e0 <> e).
             { destruct e0 as [[] | []], e as [[] | []];
                 solve [left; reflexivity | right; discriminate]. }
             destruct De as [-> | N]; [left; reflexivity | right; congruence]. }
           destruct D as [D | D].
           ++ injection D as <-. split; [left; reflexivity | exact Hp0].
           ++ destruct (IH (Some r0) (or_intror (conj H D))) as [Hin Hp].
              split; [right; exact Hin | exact Hp].
    + destruct H as [H | [H _]]; [| discriminate H].
      injection H as <-. split; [left; reflexivity |].
      unfold Route_matches in E.
      destruct (path_regex_match (path r0) (req_path req)); [reflexivity | discriminate E].
Qed.

(** The route that serves a request is a route of the table whose pattern
    accepts the path and whose methods allow the method. *)
Lemma outcome_served_in (a : Application) (req : Request) (r : Route) :
  outcome a req = Served r ->
  In r (routes a) /\
  path_regex_match (path r) (req_path req) = true /\
  method_allowed r req = true.
Proof.
  unfold outcome. intros H.
  destruct (first_match (routes a) req None) as [r0 | [r0 |]] eqn:E.
  - destruct (method_allowed r0 req) eqn:A; [| discriminate H].
    injection H as <-.
    destruct (first_match_in _ _ _ _ (or_introl E)) as [Hin Hp]. auto.
  - destruct (method_allowed r0 req) eqn:A; [| discriminate H].
    injection H as <-.
    assert (N : None <> Some r0) by discriminate.
    destruct (first_match_in _ _ _ _ (or_intror (conj E N))) as [Hin Hp]. auto.
  - destruct (redirect_slashes a && negb (req_path req =? "/")%string);
      [destruct (matches_some _ _); [destruct (utf8_valid _) |] |]; discriminate H.
Qed.

(* ===================================================================== *)
(** ** The imported application *)
(* ===================================================================== *)

Lemma respond_outcome (req : Request) :
  respond req = outcome_response (started app) (outcome app req).
Proof.
  unfold respond. rewrite asgi_call_outcome. cbn [fst]. rewrite outcome_started.
  reflexivity.
Qed.

(** The answer to a request whose path no route accepts. *)
Lemma respond_unmatched (req : Request) :
  path_in_table app (req_path req) = false ->
  respond req =
    if path_in_table app (redirect_path (req_path req))
    then if utf8_valid (req_query_string req) then RedirectResponse else error_response
    else JSONResponse [("detail", "Not Found")] 404.
Proof.
  intros H. rewrite respond_outcome. unfold path_in_table in *.
  rewrite (outcome_without_match app req (first_match_unmatched (routes app) req None H)).
  rewrite matches_some_path. cbn [with_path req_path].
  assert (Hroot : (req_path req =? "/")%string = false).
  { destruct (req_path req =? "/")%string eqn:E; [| reflexivity].
    apply String.eqb_eq in E. rewrite E in H. discriminate H. }
  rewrite Hroot.
  change (redirect_slashes app) with true. cbn [andb negb].
  destruct (existsb (fun r => path_regex_match (path r) (redirect_path (req_path req)))
                    (routes app));
    [destruct (utf8_valid (req_query_string req)) |]; reflexivity.
Qed.

(** The paths of the imported application's table, spelled out: each of
    the seven route paths, alone or followed by one newline. *)
Lemma path_in_table_app (p : string) :
  path_in_table app p =
    existsb (fun rp => String.eqb p rp || String.eqb p (rp ++ LF))
      ["/openapi.json"; "/docs"; "/docs/oauth2-redirect"; "/redoc";
       "/"; "/health"; "/api/status"].
Proof.
  reflexivity.
Qed.

Lemma path_in_table_split (p : string) :
  path_in_table app p = accepted_by docs_paths p || accepted_by declared_paths p.
Proof.
  rewrite path_in_table_app. unfold accepted_by, path_regex_match.
  rewrite <- existsb_app. reflexivity.
Qed.

Lemma accepted_by_cases (paths : list string) (p : string) :
  accepted_by paths p = true ->
  exists rp, In rp paths /\ (p = rp \/ p = rp ++ LF).
Proof.
  unfold accepted_by. intros H. apply existsb_exists in H.
  destruct H as [rp [Hin Hm]]. exists rp. split; [exact Hin |].
  unfold path_regex_match in Hm. apply orb_prop in Hm.
  destruct Hm as [E | E]; apply String.eqb_eq in E; auto.
Qed.

Ltac by_method m :=
  let G := fresh "G" in
  let H := fresh "H" in
  destruct (String.eqb m "GET") eqn:G;
  [ apply String.eqb_eq in G; subst m; reflexivity
  | destruct (String.eqb m "HEAD") eqn:H;
    [ apply String.eqb_eq in H; subst m; reflexivity
    | rewrite respond_outcome; unfold served, outcome, method_allowed;
      repeat (cbn; rewrite ?G, ?H); reflexivity ] ].

(** The status of a response in closed form. *)
Lemma respond_status_table (req : Request) :
  status_code (respond req) =
    if served req then 200
    else if path_in_table app (req_path req) then 405
    else if path_in_table app (redirect_path (req_path req))
         then if utf8_valid (req_query_string req) then 307 else 500
    else 404.
Proof.
  destruct (path_in_table app (req_path req)) eqn:T.
  - destruct req as [m p q h b]. cbn [req_path] in T.
    rewrite path_in_table_split in T. apply orb_prop in T.
    destruct T as [T | T]; apply accepted_by_cases in T;
      destruct T as [rp [Hin Hp]]; cbn in Hin.
    + destruct Hin as [<- | [<- | [<- | [<- | []]]]]; destruct Hp as [-> | ->]; by_method m.
    + destruct Hin as [<- | [<- | [<- | []]]]; destruct Hp as [-> | ->]; by_method m.
  - assert (S : served req = false).
    { rewrite path_in_table_split in T. apply orb_false_iff in T. destruct T as [T1 T2].
      unfold served. rewrite T1, T2. reflexivity. }
    rewrite S, (respond_unmatched req T).
    destruct (path_in_table app (redirect_path (req_path req)));
      [destruct (utf8_valid (req_query_string req)) |]; reflexivity.
Qed.

(** The answer to a request on a declared path with a method other than
    GET. *)
Lemma respond_wrong_method (req : Request) :
  In (req_path req) declared_paths ->
  req_method req <> "GET" ->
  respond req = JSONResponse [("detail", "Method Not Allowed")] 405.
Proof.
  intros Hp Hm. apply String.eqb_neq in Hm.
  destruct req as [m p q h b]. cbn [req_path req_method] in *.
  rewrite respond_outcome. unfold outcome, method_allowed.
  cbn in Hp. destruct Hp as [<- | [<- | [<- | []]]];
    repeat (cbn; rewrite Hm); reflexivity.
Qed.

(* ===================================================================== *)
(** ** The dispatch on concrete requests *)
(* ===================================================================== *)

Example scenario_get_health :
  respond (bare "GET" "/health") = JSONResponse [("status", "healthy")] 200.
Proof. reflexivity. Qed.

Example scenario_post_health :
  respond (bare "POST" "/health") = JSONResponse [("detail", "Method Not Allowed")] 405.
Proof. reflexivity. Qed.

Example scenario_head_root :
  status_code (respond (bare "HEAD" "/")) = 405.
Proof. reflexivity. Qed.

Example scenario_get_unknown :
  respond (bare "GET" "/unknown") = JSONResponse [("detail", "Not Found")] 404.
Proof. reflexivity. Qed.

Example scenario_get_health_slash :
  respond (bare "GET" "/health/") = RedirectResponse.
Proof. reflexivity. Qed.

Example scenario_get_health_slash_0xFF :
  respond get_health_slash_0xFF = PlainTextResponse "Internal Server Error" 500.
Proof. reflexivity. Qed.

Example scenario_get_health_newline :
  respond (bare "GET" ("/health" ++ LF)) = JSONResponse [("status", "healthy")] 200.
Proof. reflexivity. Qed.

Example scenario_get_openapi :
  respond (bare "GET" "/openapi.json")
    = mkResponse 200 (Some "application/json")
        (Generated (OpenAPIDocument [APIRoute_init "/" fn_root;
                                     APIRoute_init "/health" fn_health;
                                     APIRoute_init "/api/status" fn_status])).
Proof. reflexivity. Qed.

Example scenario_utf8 :
  utf8_valid "caf" = true /\
  utf8_valid (chr 195 ++ chr 169) = true /\
  utf8_valid (chr 195) = false /\
  utf8_valid (chr 192 ++ chr 128) = false /\
  utf8_valid (chr 237 ++ chr 160 ++ chr 128) = false /\
  utf8_valid (chr 244 ++ chr 144 ++ chr 128 ++ chr 128) = false /\
  utf8_valid (chr 240 ++ chr 159 ++ chr 152 ++ chr 128) = true.
Proof. repeat split. Qed.

Example json_dumps_escapes :
  json_dumps [("a" ++ DQUOTE ++ "b", "c" ++ LF)]
    = "{" ++ DQUOTE ++ "a" ++ chr 92 ++ DQUOTE ++ "b" ++ DQUOTE ++ ":"
          ++ DQUOTE ++ "c" ++ chr 92 ++ "n" ++ DQUOTE ++ "}".
Proof. reflexivity. Qed.

(* ===================================================================== *)
(** ** The three endpoints *)
(* ===================================================================== *)

(** C1: every request with method GET and path /health is answered with
    status 200 and the JSON body {"status":"healthy"}, whatever its query
    string, headers and body are. *)
Theorem get_health_ok (req : Request) :
  req_method req = "GET" ->
  req_path req = "/health" ->
  answers_json (respond req) 200 [("status", "healthy")] /\
  json_dumps [("status", "healthy")] = "{" ++ quoted "status" ++ ":" ++ quoted "healthy" ++ "}".
Proof.
  intros Hm Hp. destruct req as [m p q h b]. cbn in Hm, Hp. subst m p.
  repeat split.
Qed.

Lemma get_health_ok_witness :
  req_method get_health = "GET" /\
  req_path get_health = "/health" /\
  answers_json (respond get_health) 200 [("status", "healthy")].
Proof.
  split; [reflexivity |].
  split; [reflexivity |].
  apply (get_health_ok get_health); reflexivity.
Defined.

(** C2: every request with method GET and path / is answered with status
    200 and the JSON body {"message":"Hello from Kubernetes!"}. *)
Theorem get_root_ok (req : Request) :
  req_method req = "GET" ->
  req_path req = "/" ->
  answers_json (respond req) 200 [("message", "Hello from Kubernetes!")] /\
  json_dumps [("message", "Hello from Kubernetes!")]
    = "{" ++ quoted "message" ++ ":" ++ quoted "Hello from Kubernetes!" ++ "}".
Proof.
  intros Hm Hp. destruct req as [m p q h b]. cbn in Hm, Hp. subst m p.
  repeat split.
Qed.

Lemma get_root_ok_witness :
  req_method get_root = "GET" /\
  req_path get_root = "/" /\
  answers_json (respond get_root) 200 [("message", "Hello from Kubernetes!")].
Proof.
  split; [reflexivity |].
  split; [reflexivity |].
  apply (get_root_ok get_root); reflexivity.
Defined.

(** C3: every request with method GET and path /api/status is answered
    with status 200 and the JSON body {"status":"ok"}. *)
Theorem get_api_status_ok (req : Request) :
  req_method req = "GET" ->
  req_path req = "/api/status" ->
  answers_json (respond req) 200 [("status", "ok")] /\
  json_dumps [("status", "ok")] = "{" ++ quoted "status" ++ ":" ++ quoted "ok" ++ "}".
Proof.
  intros Hm Hp. destruct req as [m p q h b]. cbn in Hm, Hp. subst m p.
  repeat split.
Qed.

Lemma get_api_status_ok_witness :
  req_method get_api_status = "GET" /\
  req_path get_api_status = "/api/status" /\
  answers_json (respond get_api_status) 200 [("status", "ok")].
Proof.
  split; [reflexivity |].
  split; [reflexivity |].
  apply (get_api_status_ok get_api_status); reflexivity.
Defined.

(* ===================================================================== *)
(** ** Everything else: 404, 405, 307 and the documentation routes *)
(* ===================================================================== *)

(** C4, counterexample: POST /health is none of the three declared
    (method, path) pairs, and it is answered with 405, not 404. *)
Lemma post_health_is_405_not_404 :
  is_declared post_health = false /\
  status_code (respond post_health) = 405 /\
  status_code (respond post_health) <> 404.
Proof.
  repeat split. discriminate.
Qed.

(** C4, amended: a request whose path is accepted by no route of the table,
    and whose path with the trailing slashes toggled is accepted by none
    either, is answered with status 404 and the JSON body
    {"detail":"Not Found"}; a request with a method other than GET on one
    of the three declared paths is not answered with 404 but with status
    405 and the JSON body {"detail":"Method Not Allowed"}. *)
Theorem unknown_path_is_404_other_method_is_405 (req : Request) :
  (path_in_table app (req_path req) = false ->
   path_in_table app (redirect_path (req_path req)) = false ->
   answers_json (respond req) 404 [("detail", "Not Found")]) /\
  (In (req_path req) declared_paths ->
   req_method req <> "GET" ->
   answers_json (respond req) 405 [("detail", "Method Not Allowed")] /\
   status_code (respond req) <> 404).
Proof.
  split.
  - intros Hp Hr. rewrite (respond_unmatched req Hp), Hr. repeat split.
  - intros Hp Hm. rewrite (respond_wrong_method req Hp Hm).
    split; [repeat split | discriminate].
Qed.

Lemma unknown_path_is_404_other_method_is_405_witness :
  (path_in_table app (req_path get_unknown) = false /\
   path_in_table app (redirect_path (req_path get_unknown)) = false /\
   answers_json (respond get_unknown) 404 [("detail", "Not Found")]) /\
  (In (req_path post_health) declared_paths /\
   req_method post_health <> "GET" /\
   answers_json (respond post_health) 405 [("detail", "Method Not Allowed")]).
Proof.
  split.
  - split; [reflexivity |].
    split; [reflexivity |].
    apply (unknown_path_is_404_other_method_is_405 get_unknown); reflexivity.
  - assert (Hp : In (req_path post_health) declared_paths) by (cbn; auto).
    assert (Hm : req_method post_health <> "GET") by discriminate.
    split; [exact Hp |].
    split; [exact Hm |].
    apply (unknown_path_is_404_other_method_is_405 post_health); assumption.
Defined.

(** C5, counterexample: /docs is none of the three declared paths, and
    GET /docs is answered with status 200. *)
Lemma get_docs_is_200 :
  ~ In (req_path get_docs) declared_paths /\
  status_code (respond get_docs) = 200.
Proof.
  split; [| reflexivity].
  cbn. intros [H | [H | [H | []]]]; discriminate H.
Qed.

(** C5, amended: every request other than those in [served] (GET on a
    declared path, GET or HEAD on one of the four documentation paths, each
    path alone or followed by one newline) is answered with a status other
    than 200: with 405 when a route accepts its path, with 404 when no
    route accepts its path, toggled or not, and with 307 when only the
    toggled path is accepted and the query string is valid UTF-8. *)
Theorem other_requests_are_not_200 (req : Request) :
  served req = false ->
  status_code (respond req) <> 200 /\
  (path_in_table app (req_path req) = true -> status_code (respond req) = 405) /\
  (path_in_table app (req_path req) = false ->
   path_in_table app (redirect_path (req_path req)) = false ->
   status_code (respond req) = 404) /\
  (path_in_table app (req_path req) = false ->
   path_in_table app (redirect_path (req_path req)) = true ->
   utf8_valid (req_query_string req) = true ->
   status_code (respond req) = 307).
Proof.
  intros S. rewrite respond_status_table, S.
  destruct (path_in_table app (req_path req));
    [| destruct (path_in_table app (redirect_path (req_path req)));
       [destruct (utf8_valid (req_query_string req)) |]];
    repeat split; intros; try reflexivity; discriminate.
Qed.

Lemma other_requests_are_not_200_witness :
  served post_health = false /\
  status_code (respond post_health) <> 200 /\
  status_code (respond post_health) = 405 /\
  served (bare "POST" "/docs") = false /\
  status_code (respond (bare "POST" "/docs")) = 405 /\
  served get_health_slash = false /\
  status_code (respond get_health_slash) = 307.
Proof.
  split; [reflexivity |].
  split; [apply (other_requests_are_not_200 post_health); reflexivity |].
  split; [apply (other_requests_are_not_200 post_health); reflexivity |].
  split; [reflexivity |].
  split; [apply (other_requests_are_not_200 (bare "POST" "/docs")); reflexivity |].
  split; [reflexivity |].
  apply (other_requests_are_not_200 get_health_slash); reflexivity.
Defined.

(* ===================================================================== *)
(** ** Determinism and independence of the rest of the request *)
(* ===================================================================== *)

(** C6: the answer to a request is the same whenever it is sent.  Requests
    served before may have built the middleware stack and memoised the
    schema, yet the status code of the response and the bytes of its body
    are what they would have been after any other history; for the
    documents of the framework this holds whatever bytes each document is
    rendered to. *)
Theorem responses_are_deterministic (render : Document -> string)
  (before again : list Request) (req : Request) :
  status_code (fst (asgi_call req (serve_all before app)))
    = status_code (fst (asgi_call req (serve_all again app))) /\
  body_bytes render (body (fst (asgi_call req (serve_all before app))))
    = body_bytes render (body (fst (asgi_call req (serve_all again app)))).
Proof.
  assert (E : fst (asgi_call req (serve_all before app))
              = fst (asgi_call req (serve_all again app))).
  { apply asgi_call_response.
    - rewrite !serve_all_routes. reflexivity.
    - rewrite !serve_all_redirect_slashes. reflexivity.
    - rewrite !serve_all_schema_of. reflexivity. }
  rewrite E. split; reflexivity.
Qed.




(* ===================================================================== *)
(** ** State *)
(* ===================================================================== *)

(** C8, counterexample: the first request, here GET /health, changes the
    application object: its middleware stack, None after import, is built
    and stored. *)
Lemma first_request_builds_the_middleware_stack :
  middleware_stack app = None /\
  middleware_stack (snd (asgi_call get_health app)) = Some build_middleware_stack /\
  snd (asgi_call get_health app) <> app.
Proof.
  repeat split. discriminate.
Qed.

(** C8, amended: no handler of the module changes any state, and handling
    a request never changes the route table or the slash setting.  What a
    request can change is the two attributes the framework fills in lazily:
    the middleware stack, built by the first request and kept afterwards,
    and the OpenAPI schema, stored once and kept afterwards, which in the
    imported application only a GET or HEAD request on /openapi.json does.
    Once both are filled, handling a request leaves the application object
    as it was. *)
Theorem only_the_lazy_attributes_change :
  (forall (f : PathOperation) (s : Application), snd (call f s) = s) /\
  (forall (req : Request) (s : Application),
     routes (snd (asgi_call req s)) = routes s /\
     redirect_slashes (snd (asgi_call req s)) = redirect_slashes s) /\
  (forall (req : Request) (s : Application),
     middleware_stack (snd (asgi_call req s))
       = Some (match middleware_stack s with
               | Some stack => stack
               | None => build_middleware_stack
               end)) /\
  (forall (req : Request) (s : Application),
     openapi_schema (snd (asgi_call req s)) = openapi_schema s \/
     (openapi_schema s = None /\
      openapi_schema (snd (asgi_call req s)) = Some (get_openapi (routes s)))) /\
  (forall (history : list Request) (req : Request),
     openapi_schema (snd (asgi_call req (serve_all history app)))
       <> openapi_schema (serve_all history app) ->
     path_regex_match "/openapi.json" (req_path req) = true /\
     (req_method req = "GET" \/ req_method req = "HEAD")) /\
  (forall (req : Request) (s : Application),
     middleware_stack s <> None ->
     openapi_schema s <> None ->
     snd (asgi_call req s) = s).
Proof.
  split; [| split; [| split; [| split; [| split]]]].
  - intros f s. rewrite call_returns. reflexivity.
  - intros req s. split; [apply asgi_call_routes | apply asgi_call_redirect_slashes].
  - intros req s. rewrite asgi_call_outcome. cbn [snd].
    assert (H : middleware_stack (started s)
                = Some (match middleware_stack s with
                        | Some stack => stack
                        | None => build_middleware_stack
                        end)).
    { unfold started. destruct (middleware_stack s) eqn:E; [exact E | reflexivity]. }
    destruct (outcome (started s) req) as [r | r | | |]; try exact H.
    cbn. destruct (endpoint r) as [f | f]; [exact H |].
    destruct f; try exact H.
    unfold memoised. destruct (openapi_schema (started s)); exact H.
  - intros req s. rewrite asgi_call_outcome. cbn [snd]. rewrite outcome_started.
    destruct (outcome s req) as [r | r | | |] eqn:O;
      try (left; apply openapi_schema_started).
    cbn. destruct (endpoint r) as [f | f] eqn:E; [left; apply openapi_schema_started |].
    destruct f; try (left; apply openapi_schema_started).
    unfold memoised. rewrite openapi_schema_started, routes_started.
    destruct (openapi_schema s) eqn:Hs.
    + left. rewrite openapi_schema_started. exact Hs.
    + right. split; reflexivity.
  - intros history req. rewrite asgi_call_outcome. cbn [snd]. rewrite outcome_started.
    rewrite (outcome_congr (serve_all history app) app);
      [| apply serve_all_routes | apply serve_all_redirect_slashes].
    destruct (outcome app req) as [r | r | | |] eqn:O;
      try (intros N; contradiction N; apply openapi_schema_started).
    cbn. destruct (endpoint r) as [f | f] eqn:E;
      [intros N; contradiction N; apply openapi_schema_started |].
    destruct f; try (intros N; contradiction N; apply openapi_schema_started).
    intros _. destruct (outcome_served_in app req r O) as [Hin [Hp Ha]].
    cbn in Hin.
    destruct Hin as [<- | [<- | [<- | [<- | [<- | [<- | [<- | []]]]]]]];
      try discriminate E.
    split; [exact Hp |].
    unfold method_allowed in Ha. cbn in Ha.
    apply orb_prop in Ha. destruct Ha as [Ha | Ha].
    + left. apply String.eqb_eq. exact Ha.
    + right. apply orb_prop in Ha. destruct Ha as [Ha | Ha]; [| discriminate Ha].
      apply String.eqb_eq. exact Ha.
  - exact asgi_call_warm.
Qed.

(** C9, counterexample: the route table built at import is not the three
    declared routes: it also routes GET /docs. *)
Lemma route_table_has_docs :
  route_pairs app <> declared_routes /\
  In ("GET", "/docs") (route_pairs app) /\
  length (routes app) = 7%nat.
Proof.
  split; [discriminate |].
  split; [cbn; tauto | reflexivity].
Qed.

(** C9, amended: the route table is fixed at import to seven routes: the
    four documentation routes of the framework constructor, each for GET
    and HEAD, followed by the three routes of the module, which are exactly
    (GET, /), (GET, /health) and (GET, /api/status); handling requests
    never changes it. *)
Theorem route_table_is_fixed :
  map (fun r => (methods r, path r, endpoint r)) (routes app)
    = [(["GET"; "HEAD"], "/openapi.json", Docs fn_openapi);
       (["GET"; "HEAD"], "/docs", Docs fn_swagger_ui_html);
       (["GET"; "HEAD"], "/docs/oauth2-redirect", Docs fn_swagger_ui_redirect);
       (["GET"; "HEAD"], "/redoc", Docs fn_redoc_html);
       (["GET"], "/", PathOp fn_root);
       (["GET"], "/health", PathOp fn_health);
       (["GET"], "/api/status", PathOp fn_status)] /\
  routes app = (routes FastAPI ++ module_routes app)%list /\
  route_pairs (set_routes app (module_routes app)) = declared_routes /\
  (forall history : list Request, routes (serve_all history app) = routes app) /\
  (forall (req : Request) (s : Application), routes (snd (asgi_call req s)) = routes s).
Proof.
  split; [reflexivity |].
  split; [reflexivity |].
  split; [reflexivity |].
  split.
  - intros history. apply serve_all_routes.
  - exact asgi_call_routes.
Qed.

(* ===================================================================== *)
(** ** The handlers *)
(* ===================================================================== *)

(** C10: root, health and status take no argument and are total and
    constant: every call returns the handler's one-key dictionary, in any
    state, and raises nothing.  Hence the exception branch after a handler
    call is never taken: the request handler that wraps a handler always
    ends in the 200 response with the handler's dictionary, and the
    imported application answers with 500 only requests whose path no
    route, and so no handler, accepts. *)
Theorem handlers_are_total_constants :
  (forall s, root s = (inr [("message", "Hello from Kubernetes!")], s)) /\
  (forall s, health s = (inr [("status", "healthy")], s)) /\
  (forall s, status s = (inr [("status", "ok")], s)) /\
  (forall f s, exists d, call f s = (inr d, s) /\ length d = 1%nat) /\
  (forall f s e, fst (call f s) <> inl e) /\
  (forall f req s, request_handler f req s = (inr (JSONResponse (returned f) 200), s)) /\
  (forall (history : list Request) (req : Request),
     status_code (fst (asgi_call req (serve_all history app))) = 500 ->
     path_in_table app (req_path req) = false).
Proof.
  split; [reflexivity |].
  split; [reflexivity |].
  split; [reflexivity |].
  split; [exact call_pure |].
  split; [| split].
  - intros f s e. rewrite call_returns. discriminate.
  - intros f req s. unfold request_handler, bind. rewrite call_returns. reflexivity.
  - intros history req H.
    assert (E : fst (asgi_call req (serve_all history app)) = respond req).
    { unfold respond. apply asgi_call_response.
      - apply serve_all_routes.
      - apply serve_all_redirect_slashes.
      - apply serve_all_schema_of. }
    rewrite E, respond_status_table in H.
    destruct (served req); [discriminate H |].
    destruct (path_in_table app (req_path req)); [discriminate H | reflexivity].
Qed.

(* ===================================================================== *)
(** ** Registering routes *)
(* ===================================================================== *)

Lemma status_outcome_response (a1 a2 : Application) (o : Outcome) :
  status_code (outcome_response a1 o) = status_code (outcome_response a2 o).
Proof.
  destruct o as [r | r | | |]; try reflexivity.
  cbn. destruct (endpoint r) as [f | f]; destruct f; reflexivity.
Qed.

Lemma outcome_response_but_schema (a1 a2 : Application) (o : Outcome) :
  is_openapi_document (body (outcome_response a2 o)) = false ->
  outcome_response a1 o = outcome_response a2 o.
Proof.
  destruct o as [r | r | | |]; try reflexivity.
  cbn. destruct (endpoint r) as [f | f]; destruct f; try reflexivity.
  cbn. discriminate.
Qed.

(** Two applications in which a request has the same outcome answer it
    alike, apart from the schema in the OpenAPI document. *)
Lemma same_outcome_same_answer (a1 a2 : Application) (req : Request) :
  outcome a1 req = outcome a2 req ->
  status_code (fst (asgi_call req a1)) = status_code (fst (asgi_call req a2)) /\
  (is_openapi_document (body (fst (asgi_call req a2))) = false ->
   fst (asgi_call req a1) = fst (asgi_call req a2)).
Proof.
  intros H. rewrite !asgi_call_outcome. cbn [fst]. rewrite !outcome_started, H.
  split; [apply status_outcome_response | apply outcome_response_but_schema].
Qed.

Lemma Route_matches_none (p : string) (f : PathOperation) (req : Request) :
  path_regex_match p (req_path req) = false ->
  Route_matches (APIRoute_init p f) req = NONE.
Proof.
  intros H. unfold Route_matches. cbn. rewrite H. reflexivity.
Qed.

(** X1: decorating one more function with app.get(p), for a literal path
    p on a table of literal paths, leaves the answer to every request
    untouched whose path, and whose path with the trailing slashes toggled,
    the new route does not accept: the status is the same, and so is the
    whole response unless it is the OpenAPI document, which lists the
    routes. *)
Theorem registering_leaves_other_paths (a : Application) (p : string) (f : PathOperation)
  (req : Request) :
  literal_table a = true ->
  literal_path p = true ->
  path_regex_match p (req_path req) = false ->
  path_regex_match p (redirect_path (req_path req)) = false ->
  status_code (fst (asgi_call req (get p f a))) = status_code (fst (asgi_call req a)) /\
  (is_openapi_document (body (fst (asgi_call req a))) = false ->
   fst (asgi_call req (get p f a)) = fst (asgi_call req a)).
Proof.
  intros _ _ Hp Hr. apply same_outcome_same_answer.
  unfold outcome. cbn [get add_api_route set_routes routes redirect_slashes].
  rewrite (first_match_snoc_none _ _ req None (Route_matches_none p f req Hp)).
  rewrite matches_some_app.
  replace (matches_some [APIRoute_init p f] (with_path req (redirect_path (req_path req))))
    with false; [rewrite orb_false_r; reflexivity |].
  unfold matches_some. cbn [existsb]. rewrite Route_matches_none; [reflexivity | exact Hr].
Qed.

Lemma registering_leaves_other_paths_witness :
  literal_table app = true /\
  literal_path "/metrics" = true /\
  path_regex_match "/metrics" (req_path get_health) = false /\
  path_regex_match "/metrics" (redirect_path (req_path get_health)) = false /\
  fst (asgi_call get_health (get "/metrics" fn_status app)) = fst (asgi_call get_health app).
Proof.
  split; [reflexivity |].
  split; [reflexivity |].
  split; [reflexivity |].
  split; [reflexivity |].
  apply (registering_leaves_other_paths app "/metrics" fn_status get_health); reflexivity.
Defined.

(** X2: a route registered earlier takes precedence: on a table of
    literal paths, when some route already matches a request fully,
    decorating another function for a literal path, even the same path,
    does not change the answer to that request: the status is the same,
    and so is the whole response unless it is the OpenAPI document. *)
Theorem earlier_route_takes_precedence (a : Application) (p : string) (f : PathOperation)
  (req : Request) :
  literal_table a = true ->
  literal_path p = true ->
  has_full_match (routes a) req = true ->
  status_code (fst (asgi_call req (get p f a))) = status_code (fst (asgi_call req a)) /\
  (is_openapi_document (body (fst (asgi_call req a))) = false ->
   fst (asgi_call req (get p f a)) = fst (asgi_call req a)).
Proof.
  intros _ _ H. apply same_outcome_same_answer.
  destruct (first_match_of_full (routes a) [APIRoute_init p f] req None H) as [Happ [r Hr]].
  unfold outcome. cbn [get add_api_route set_routes routes redirect_slashes].
  rewrite Happ, Hr. reflexivity.
Qed.

Lemma earlier_route_takes_precedence_witness :
  literal_table app = true /\
  literal_path "/health" = true /\
  has_full_match (routes app) get_health = true /\
  fst (asgi_call get_health (get "/health" fn_status app))
    = JSONResponse [("status", "healthy")] 200.
Proof.
  split; [reflexivity |].
  split; [reflexivity |].
  split; [reflexivity |].
  destruct (earlier_route_takes_precedence app "/health" fn_status get_health
              eq_refl eq_refl eq_refl) as [_ E].
  rewrite E; reflexivity.
Defined.

Lemma append_LF_injective (a b : string) : a ++ LF = b ++ LF -> a = b.
Proof.
  revert b. induction a as [| x a IH]; intros [| y b] H; cbn in H.
  - reflexivity.
  - injection H as _ H. destruct b; discriminate H.
  - injection H as _ H. destruct a; discriminate H.
  - injection H as Hx H. subst y. f_equal. apply IH. exact H.
Qed.

Lemma patterns_disjoint (p1 p2 q : string) :
  overlapping p1 p2 = false ->
  path_regex_match p1 q = true ->
  path_regex_match p2 q = false.
Proof.
  unfold overlapping, path_regex_match. intros H H1.
  apply orb_false_iff in H. destruct H as [H H3].
  apply orb_false_iff in H. destruct H as [Ha Hb].
  apply String.eqb_neq in Ha, Hb, H3.
  apply orb_false_iff. apply orb_prop in H1.
  destruct H1 as [E | E]; apply String.eqb_eq in E; subst q;
    split; apply String.eqb_neq; intros E.
  - contradiction.
  - contradiction.
  - symmetry in E. contradiction.
  - apply append_LF_injective in E. contradiction.
Qed.

(** X12: the order of two decorators does not matter when their paths
    are literal and do not overlap: on a table of literal paths,
    registering them one way or the other gives every request the same
    status, and the same response unless it is the OpenAPI document, whose
    schema lists the routes in the order of registration. *)
Theorem decorator_order_is_irrelevant (a : Application) (p1 p2 : string)
  (f1 f2 : PathOperation) (req : Request) :
  literal_table a = true ->
  literal_path p1 = true ->
  literal_path p2 = true ->
  overlapping p1 p2 = false ->
  status_code (fst (asgi_call req (get p1 f1 (get p2 f2 a))))
    = status_code (fst (asgi_call req (get p2 f2 (get p1 f1 a)))) /\
  (is_openapi_document (body (fst (asgi_call req (get p2 f2 (get p1 f1 a))))) = false ->
   fst (asgi_call req (get p1 f1 (get p2 f2 a)))
     = fst (asgi_call req (get p2 f2 (get p1 f1 a)))).
Proof.
  intros _ _ _ H. apply same_outcome_same_answer.
  unfold outcome. cbn [get add_api_route set_routes routes redirect_slashes].
  rewrite <- !app_assoc.
  change ([APIRoute_init p2 f2] ++ [APIRoute_init p1 f1])%list
    with [APIRoute_init p2 f2; APIRoute_init p1 f1].
  change ([APIRoute_init p1 f1] ++ [APIRoute_init p2 f2])%list
    with [APIRoute_init p1 f1; APIRoute_init p2 f2].
  rewrite (first_match_swap (routes a) (APIRoute_init p1 f1) (APIRoute_init p2 f2) req None).
  - replace (matches_some (routes a ++ [APIRoute_init p2 f2; APIRoute_init p1 f1])
               (with_path req (redirect_path (req_path req))))
      with (matches_some (routes a ++ [APIRoute_init p1 f1; APIRoute_init p2 f2])
               (with_path req (redirect_path (req_path req)))); [reflexivity |].
    rewrite !matches_some_app. f_equal. unfold matches_some. cbn [existsb].
    rewrite !orb_false_r. apply orb_comm.
  - destruct (path_regex_match p1 (req_path req)) eqn:E1.
    + right. apply Route_matches_none. exact (patterns_disjoint p1 p2 _ H E1).
    + left. apply Route_matches_none. exact E1.
Qed.

Lemma decorator_order_is_irrelevant_witness :
  literal_table FastAPI = true /\
  literal_path "/health" = true /\
  literal_path "/api/status" = true /\
  overlapping "/health" "/api/status" = false /\
  fst (asgi_call get_health (get "/health" fn_health (get "/api/status" fn_status FastAPI)))
    = fst (asgi_call get_health (get "/api/status" fn_status (get "/health" fn_health FastAPI))).
Proof.
  split; [reflexivity |].
  split; [reflexivity |].
  split; [reflexivity |].
  split; [reflexivity |].
  apply (decorator_order_is_irrelevant FastAPI "/health" "/api/status"); reflexivity.
Defined.

(* ===================================================================== *)
(** ** Shapes of the responses, redirects *)
(* ===================================================================== *)




(* ===================================================================== *)
(** ** test_health *)
(* ===================================================================== *)

Lemma send_handling_redirects_done (budget : nat) (req : Request) (s s' : Application)
  (response : Response) :
  client_send req s = (inr response, s') ->
  (status_code response =? 307) = false ->
  send_handling_redirects budget req s = (inr response, s').
Proof.
  intros Hsend Hstatus. destruct budget; cbn [send_handling_redirects];
    rewrite Hsend, Hstatus; reflexivity.
Qed.

(** X6: test_health passes: whatever default headers the client sends and
    whatever requests the application has served before, client.get on
    /health has status 200, so the assertion holds and nothing is
    raised. *)
Theorem test_health_passes (default_headers : list (string * string))
  (history : list Request) :
  fst (test_health default_headers (serve_all history app)) = inr tt.
Proof.
  assert (Hsend :
    client_send (mkRequest "GET" "/health" EmptyString default_headers EmptyString)
                (serve_all history app)
    = (inr (JSONResponse [("status", "healthy")] 200), started (serve_all history app))).
  { unfold client_send. rewrite Starlette_call_outcome, outcome_started.
    rewrite (outcome_congr (serve_all history app) app);
      [| apply serve_all_routes | apply serve_all_redirect_slashes].
    change (outcome app (mkRequest "GET" "/health" EmptyString default_headers EmptyString))
      with (Served (APIRoute_init "/health" fn_health)).
    reflexivity. }
  unfold test_health, client_get, bind.
  rewrite (send_handling_redirects_done _ _ _ _ _ Hsend eq_refl).
  reflexivity.
Qed.

(* ===================================================================== *)
(** ** The status of every request to the imported application *)
(* ===================================================================== *)

(** X7: the imported application answers with 200 exactly the requests in
    [served]: GET on one of the three declared paths, GET or HEAD on one of
    the four documentation paths, each path alone or followed by one
    newline.  In particular HEAD on a declared path is not served. *)
Theorem status_is_200_exactly_when_served (req : Request) :
  (status_code (respond req) =? 200) = served req.
Proof.
  rewrite respond_status_table.
  destruct (served req); [reflexivity |].
  destruct (path_in_table app (req_path req)); [reflexivity |].
  destruct (path_in_table app (redirect_path (req_path req)));
    [destruct (utf8_valid (req_query_string req)) |]; reflexivity.
Qed.

(** X8: the imported application answers with 405 exactly the requests
    whose path a route accepts and that are not served: the method is the
    only thing wrong with them. *)
Theorem status_is_405_exactly_for_other_methods (req : Request) :
  (status_code (respond req) =? 405)
    = path_in_table app (req_path req) && negb (served req).
Proof.
  rewrite respond_status_table.
  destruct (served req); [rewrite andb_false_r; reflexivity |].
  destruct (path_in_table app (req_path req)); [reflexivity |].
  destruct (path_in_table app (redirect_path (req_path req)));
    [destruct (utf8_valid (req_query_string req)) |]; reflexivity.
Qed.


(** X9: the imported application answers with 404 exactly the requests
    whose path no route accepts, with or without its trailing slashes
    toggled.  When no route accepts the path but one accepts the toggled
    path, it answers with 307 exactly when the query string is valid UTF-8,
    and with 500 exactly when it is not. *)
Theorem status_of_unknown_paths (req : Request) :
  (status_code (respond req) =? 404)
    = negb (path_in_table app (req_path req))
      && negb (path_in_table app (redirect_path (req_path req))) /\
  (status_code (respond req) =? 307)
    = negb (path_in_table app (req_path req))
      && path_in_table app (redirect_path (req_path req))
      && utf8_valid (req_query_string req) /\
  (status_code (respond req) =? 500)
    = negb (path_in_table app (req_path req))
      && path_in_table app (redirect_path (req_path req))
      && negb (utf8_valid (req_query_string req)).
Proof.
  rewrite respond_status_table.
  destruct (path_in_table app (req_path req)) eqn:T.
  - destruct (served req); repeat split; reflexivity.
  - assert (S : served req = false).
    { rewrite path_in_table_split in T. apply orb_false_iff in T. destruct T as [T1 T2].
      unfold served. rewrite T1, T2. reflexivity. }
    rewrite S.
    destruct (path_in_table app (redirect_path (req_path req)));
      [destruct (utf8_valid (req_query_string req)) |]; repeat split; reflexivity.
Qed.

(* ===================================================================== *)
(** ** The JSON bodies *)
(* ===================================================================== *)

Lemma append_assoc (a b c : string) : (a ++ b) ++ c = a ++ (b ++ c).
Proof.
  induction a as [| x a IH]; cbn; [reflexivity | rewrite IH; reflexivity].
Qed.

Lemma no_control_character_append (a b : string) :
  no_control_character (a ++ b) = no_control_character a && no_control_character b.
Proof.
  induction a as [| x a IH]; cbn; [reflexivity |].
  rewrite IH. apply andb_assoc.
Qed.

Lemma no_control_character_escape_char (a : ascii) :
  no_control_character (escape_char a) = true.
Proof.
  destruct a as [[] [] [] [] [] [] [] []]; reflexivity.
Qed.

Lemma no_control_character_escape (s : string) :
  no_control_character (escape s) = true.
Proof.
  induction s as [| a s IH]; cbn [escape]; [reflexivity |].
  rewrite no_control_character_append, no_control_character_escape_char, IH. reflexivity.
Qed.

Lemma no_control_character_encode (s : string) :
  no_control_character (encode_basestring s) = true.
Proof.
  unfold encode_basestring.
  rewrite !no_control_character_append, no_control_character_escape. reflexivity.
Qed.

Lemma no_control_character_join (parts : list string) :
  forallb no_control_character parts = true ->
  no_control_character (join "," parts) = true.
Proof.
  induction parts as [| p ps IH]; cbn [join forallb]; intros H; [reflexivity |].
  apply andb_prop in H. destruct H as [Hp Hps].
  destruct ps as [| q qs]; [exact Hp |].
  rewrite !no_control_character_append, Hp, (IH Hps). reflexivity.
Qed.

(** X10: the body written for a dict never holds a raw control character
    (a byte below 0x20), whatever the keys and values are: line feeds,
    tabs and the like only appear escaped. *)
Theorem json_body_has_no_control_character (d : PyDict) :
  no_control_character (json_dumps d) = true.
Proof.
  unfold json_dumps. rewrite !no_control_character_append.
  rewrite no_control_character_join; [reflexivity |].
  induction d as [| kv d IH]; cbn [map forallb]; [reflexivity |].
  rewrite !no_control_character_append, !no_control_character_encode, IH. reflexivity.
Qed.

(** Reading back one escaped character. *)
Lemma scan_string_escape_char (a : ascii) (tail : string) :
  scan_string (escape_char a ++ tail) =
    match scan_string tail with
    | Some (content, after) => Some (String a content, after)
    | None => None
    end.
Proof.
  destruct a as [[] [] [] [] [] [] [] []]; reflexivity.
Qed.

(** Reading back what the encoder wrote. *)
Lemma scan_string_escape (s rest : string) :
  scan_string (escape s ++ DQUOTE ++ rest) = Some (s, rest).
Proof.
  induction s as [| a s IH]; [reflexivity |].
  cbn [escape]. rewrite append_assoc, scan_string_escape_char, IH. reflexivity.
Qed.

Lemma append_cancel (a x y : string) : a ++ x = a ++ y -> x = y.
Proof.
  induction a as [| c a IH]; cbn; intros H; [exact H |].
  injection H as H. apply IH. exact H.
Qed.

(** Two members written one after the other are read back one by one. *)
Lemma member_injective (k1 v1 k2 v2 tail1 tail2 : string) :
  DQUOTE ++ escape k1 ++ DQUOTE ++ ":" ++ DQUOTE ++ escape v1 ++ DQUOTE ++ tail1
  = DQUOTE ++ escape k2 ++ DQUOTE ++ ":" ++ DQUOTE ++ escape v2 ++ DQUOTE ++ tail2 ->
  k1 = k2 /\ v1 = v2 /\ tail1 = tail2.
Proof.
  intros H.
  assert (Hk : escape k1 ++ DQUOTE ++ (":" ++ DQUOTE ++ escape v1 ++ DQUOTE ++ tail1)
               = escape k2 ++ DQUOTE ++ (":" ++ DQUOTE ++ escape v2 ++ DQUOTE ++ tail2)).
  { apply (append_cancel DQUOTE). exact H. }
  apply (f_equal scan_string) in Hk. rewrite !scan_string_escape in Hk.
  injection Hk as Hk Hrest. split; [exact Hk |].
  assert (Hv : escape v1 ++ DQUOTE ++ tail1 = escape v2 ++ DQUOTE ++ tail2).
  { exact Hrest. }
  apply (f_equal scan_string) in Hv. rewrite !scan_string_escape in Hv.
  injection Hv as Hv Htail. split; [exact Hv | exact Htail].
Qed.

(** The members of an object as the encoder writes them, closed by the
    brace: the first member, then the rest. *)
Lemma members_cons (k v : string) (d : PyDict) :
  join "," (map (fun kv => encode_basestring (fst kv) ++ ":" ++ encode_basestring (snd kv))
                ((k, v) :: d)) ++ "}"
  = DQUOTE ++ escape k ++ DQUOTE ++ ":" ++ DQUOTE ++ escape v ++ DQUOTE ++
    match d with
    | [] => "}"
    | _ :: _ =>
        "," ++ join "," (map (fun kv => encode_basestring (fst kv) ++ ":"
                                         ++ encode_basestring (snd kv)) d) ++ "}"
    end.
Proof.
  unfold encode_basestring. destruct d as [| kv d]; cbn [map join fst snd];
    rewrite !append_assoc; reflexivity.
Qed.

Lemma members_injective (d1 d2 : PyDict) :
  join "," (map (fun kv => encode_basestring (fst kv) ++ ":" ++ encode_basestring (snd kv)) d1)
    ++ "}"
  = join "," (map (fun kv => encode_basestring (fst kv) ++ ":" ++ encode_basestring (snd kv)) d2)
    ++ "}" ->
  d1 = d2.
Proof.
  revert d2. induction d1 as [| [k1 v1] d1 IH]; intros [| [k2 v2] d2] H.
  - reflexivity.
  - rewrite members_cons in H. discriminate H.
  - rewrite members_cons in H. discriminate H.
  - rewrite !members_cons in H.
    apply member_injective in H. destruct H as [Hk [Hv Htail]]. subst k2 v2.
    f_equal.
    destruct d1 as [| kv1 d1]; destruct d2 as [| kv2 d2]; try discriminate Htail.
    + reflexivity.
    + apply IH. apply (append_cancel ","). exact Htail.
Qed.

(** X11: the body determines the dict: two dicts rendered to the same
    bytes have the same keys and values in the same order, so no content
    is lost or confused by the escaping. *)
Theorem json_body_determines_the_dict (d1 d2 : PyDict) :
  json_dumps d1 = json_dumps d2 -> d1 = d2.
Proof.
  unfold json_dumps. intros H. apply members_injective.
  apply (append_cancel "{"). exact H.
Qed.

Lemma json_body_determines_the_dict_witness :
  json_dumps [("status", "ok")] = json_dumps [("status", "ok")] /\
  [("status", "ok")] = [("status", "ok")].
Proof.
  split; [reflexivity |].
  apply (json_body_determines_the_dict [("status", "ok")] [("status", "ok")]). reflexivity.
Defined.
